(** * The implementors data file of [core::ops::ShrAssign] and its hand-off

    [docs/master/implementors/core/ops/trait.ShrAssign.js] is one
    immediately-invoked function.  It builds the object [implementors],
    whose single property ["fasthash"] holds an array of pre-rendered HTML
    fragments, and hands that object to the page: either by calling
    [window.register_implementors] or, when that global is falsy, by
    assigning the object to [window.pending_implementors].

    The embedding below follows the script statement by statement in a
    small state-and-exception monad over the page's global object.  The
    behaviour of the function objects that live on the page is a parameter
    (class [Host]): the script does not define any function it calls.  The
    other half of the protocol, the registrar of the shared site script, is
    not part of the sources; it is modelled from the specification in a
    part of its own. *)

From Stdlib Require Import PrimFloat.
From stdpp Require Import base option list strings gmap.

Set Warnings "-register-all".

(** ** JavaScript values *)

(** A function object is known by its identity; what calling it does is
    given by the host page (see [Host]). *)
Definition fnid := positive.

(** The values a global of the page can hold.  Objects and arrays are
    modelled by value: the script builds its object once, never mutates it
    after the hand-off, and keeps no reference to it once the enclosing
    function has returned. *)
Inductive jsval :=
  | JUndefined
  | JNull
  | JBool (b : bool)
  | JNumber (x : float)
  | JString (s : string)
  | JArray (elems : list jsval)
  | JObject (props : list (string * jsval))
  | JFunction (f : fnid).

(** [ToBoolean], the conversion performed by [if (...)]: [undefined],
    [null], [false], [+0], [-0], [NaN] and the empty string are falsy;
    every object, array and function is truthy. *)
Definition to_boolean (v : jsval) : bool :=
  match v with
  | JUndefined | JNull => false
  | JBool b => b
  | JNumber x => negb (is_zero x || is_nan x)
  | JString s => match s with EmptyString => false | String _ _ => true end
  | JArray _ | JObject _ | JFunction _ => true
  end.

(** [o[k] = v] on the own properties of a plain object, for an ordinary
    string key such as the file's ["fasthash"]: an existing key keeps its
    position, a new key is appended.  Integer-like keys, which JavaScript
    orders first, and [__proto__], which runs a setter, are outside this
    model; the file assigns neither. *)
Fixpoint props_set (k : string) (v : jsval) (ps : list (string * jsval))
  : list (string * jsval) :=
  match ps with
  | [] => [(k, v)]
  | (k', v') :: ps' =>
      if decide (k = k') then (k, v) :: ps' else (k', v') :: props_set k v ps'
  end.

(** [o[k]] on the own properties of a plain object; properties inherited
    from the prototype are outside this model. *)
Fixpoint props_get (k : string) (ps : list (string * jsval)) : jsval :=
  match ps with
  | [] => JUndefined
  | (k', v') :: ps' => if decide (k = k') then v' else props_get k ps'
  end.

(** Property read on a value; anything but a plain object has no own
    string-keyed property of interest here. *)
Definition get_prop (v : jsval) (k : string) : jsval :=
  match v with
  | JObject ps => props_get k ps
  | _ => JUndefined
  end.

(** The own keys of a value, in property order. *)
Definition own_keys (v : jsval) : list string :=
  match v with
  | JObject ps => ps.*1
  | _ => []
  end.

(** A payload is a plain object. *)
Definition is_object (v : jsval) : bool :=
  match v with
  | JObject _ => true
  | _ => false
  end.

(** ** Completions, host and page state *)

Inductive exn :=
  | TypeError
  | Thrown (v : jsval).

(** How a computation ends: normally with a value, or abruptly with an
    exception that nothing in the script catches. *)
Inductive outcome (A : Type) :=
  | Return (a : A)
  | Throw (e : exn).
Arguments Return {A} a.
Arguments Throw {A} e.

(** The host page: whatever state its own scripts keep besides the global
    object, and what calling one of its function objects (as a method of
    [window], so [this] is the global object it is given) with a list of
    arguments does to the global object and to that state. *)
Class Host := {
  hstate : Type;
  call_fn : fnid → list jsval → gmap string jsval → hstate →
            outcome jsval * gmap string jsval * hstate
}.

(** What the script itself does to the page, in program order: the calls
    it makes and the globals it writes. *)
Inductive event :=
  | EvCall (f : fnid) (args : list jsval)
  | EvWrite (k : string) (v : jsval).

(** The page: the data properties of the global object [window], the host
    state, and the events so far. *)
Record state `{Host} := State {
  window : gmap string jsval;
  host : hstate;
  trace : list event
}.

(** ** The monad of script execution *)

Definition M `{Host} (A : Type) : Type := state → outcome A * state.

#[global] Instance M_ret `{Host} : MRet M := λ A a s, (Return a, s).

#[global] Instance M_bind `{Host} : MBind M := λ A B k m s,
  match m s with
  | (Return a, s') => k a s'
  | (Throw e, s') => (Throw e, s')
  end.

(** [window.k] as an expression: a missing property reads [undefined]. *)
Definition read_global (w : gmap string jsval) (k : string) : jsval :=
  default JUndefined (w !! k).

Definition get_global `{Host} (k : string) : M jsval :=
  λ s, (Return (read_global (window s) k), s).

(** [window.k = v]. *)
Definition set_global `{Host} (k : string) (v : jsval) : M unit :=
  λ s, (Return tt,
        {| window := <[k := v]> (window s);
           host := host s;
           trace := trace s ++ [EvWrite k v] |}).

(** [callee(args)]: a [TypeError] unless the callee is a function object,
    otherwise the host runs the function on the current page. *)
Definition call `{Host} (callee : jsval) (args : list jsval) : M jsval :=
  λ s,
    match callee with
    | JFunction f =>
        let '(c, w, h) := call_fn f args (window s) (host s) in
        (c, {| window := w; host := h; trace := trace s ++ [EvCall f args] |})
    | _ => (Throw TypeError, s)
    end.

(** ** The script *)

(** Lines 4 to 8: the [if]/[else] that hands [implementors] over.  The
    global is read once for the test and once more for the call. *)
Definition publish `{Host} (implementors : jsval) : M unit :=
  c ← get_global "register_implementors";
  if to_boolean c then
    f ← get_global "register_implementors";
    call f [implementors] ;; mret tt
  else
    set_global "pending_implementors" implementors.

(** Line 2: the array literal assigned to [implementors["fasthash"]]. *)
Definition fasthash_implementors : list string :=
  [ "impl <a class='trait' href='https://doc.rust-lang.org/nightly/core/ops/trait.ShrAssign.html' title='core::ops::ShrAssign'>ShrAssign</a>&lt;<a class='primitive' href='https://doc.rust-lang.org/nightly/std/primitive.u8.html'>u8</a>&gt; for u128"
  ; "impl <a class='trait' href='https://doc.rust-lang.org/nightly/core/ops/trait.ShrAssign.html' title='core::ops::ShrAssign'>ShrAssign</a>&lt;<a class='primitive' href='https://doc.rust-lang.org/nightly/std/primitive.u16.html'>u16</a>&gt; for u128"
  ; "impl <a class='trait' href='https://doc.rust-lang.org/nightly/core/ops/trait.ShrAssign.html' title='core::ops::ShrAssign'>ShrAssign</a>&lt;<a class='primitive' href='https://doc.rust-lang.org/nightly/std/primitive.u32.html'>u32</a>&gt; for u128"
  ; "impl <a class='trait' href='https://doc.rust-lang.org/nightly/core/ops/trait.ShrAssign.html' title='core::ops::ShrAssign'>ShrAssign</a>&lt;<a class='primitive' href='https://doc.rust-lang.org/nightly/std/primitive.u64.html'>u64</a>&gt; for u128"
  ; "impl <a class='trait' href='https://doc.rust-lang.org/nightly/core/ops/trait.ShrAssign.html' title='core::ops::ShrAssign'>ShrAssign</a>&lt;<a class='primitive' href='https://doc.rust-lang.org/nightly/std/primitive.usize.html'>usize</a>&gt; for u128"
  ; "impl <a class='trait' href='https://doc.rust-lang.org/nightly/core/ops/trait.ShrAssign.html' title='core::ops::ShrAssign'>ShrAssign</a>&lt;<a class='primitive' href='https://doc.rust-lang.org/nightly/std/primitive.i8.html'>i8</a>&gt; for u128"
  ; "impl <a class='trait' href='https://doc.rust-lang.org/nightly/core/ops/trait.ShrAssign.html' title='core::ops::ShrAssign'>ShrAssign</a>&lt;<a class='primitive' href='https://doc.rust-lang.org/nightly/std/primitive.i16.html'>i16</a>&gt; for u128"
  ; "impl <a class='trait' href='https://doc.rust-lang.org/nightly/core/ops/trait.ShrAssign.html' title='core::ops::ShrAssign'>ShrAssign</a>&lt;<a class='primitive' href='https://doc.rust-lang.org/nightly/std/primitive.i32.html'>i32</a>&gt; for u128"
  ; "impl <a class='trait' href='https://doc.rust-lang.org/nightly/core/ops/trait.ShrAssign.html' title='core::ops::ShrAssign'>ShrAssign</a>&lt;<a class='primitive' href='https://doc.rust-lang.org/nightly/std/primitive.i64.html'>i64</a>&gt; for u128"
  ; "impl <a class='trait' href='https://doc.rust-lang.org/nightly/core/ops/trait.ShrAssign.html' title='core::ops::ShrAssign'>ShrAssign</a>&lt;<a class='primitive' href='https://doc.rust-lang.org/nightly/std/primitive.isize.html'>isize</a>&gt; for u128"
  ; "impl <a class='trait' href='https://doc.rust-lang.org/nightly/core/ops/trait.ShrAssign.html' title='core::ops::ShrAssign'>ShrAssign</a>&lt;<a class='primitive' href='https://doc.rust-lang.org/nightly/std/primitive.u8.html'>u8</a>&gt; for i128"
  ; "impl <a class='trait' href='https://doc.rust-lang.org/nightly/core/ops/trait.ShrAssign.html' title='core::ops::ShrAssign'>ShrAssign</a>&lt;<a class='primitive' href='https://doc.rust-lang.org/nightly/std/primitive.u16.html'>u16</a>&gt; for i128"
  ; "impl <a class='trait' href='https://doc.rust-lang.org/nightly/core/ops/trait.ShrAssign.html' title='core::ops::ShrAssign'>ShrAssign</a>&lt;<a class='primitive' href='https://doc.rust-lang.org/nightly/std/primitive.u32.html'>u32</a>&gt; for i128"
  ; "impl <a class='trait' href='https://doc.rust-lang.org/nightly/core/ops/trait.ShrAssign.html' title='core::ops::ShrAssign'>ShrAssign</a>&lt;<a class='primitive' href='https://doc.rust-lang.org/nightly/std/primitive.u64.html'>u64</a>&gt; for i128"
  ; "impl <a class='trait' href='https://doc.rust-lang.org/nightly/core/ops/trait.ShrAssign.html' title='core::ops::ShrAssign'>ShrAssign</a>&lt;<a class='primitive' href='https://doc.rust-lang.org/nightly/std/primitive.usize.html'>usize</a>&gt; for i128"
  ; "impl <a class='trait' href='https://doc.rust-lang.org/nightly/core/ops/trait.ShrAssign.html' title='core::ops::ShrAssign'>ShrAssign</a>&lt;<a class='primitive' href='https://doc.rust-lang.org/nightly/std/primitive.i8.html'>i8</a>&gt; for i128"
  ; "impl <a class='trait' href='https://doc.rust-lang.org/nightly/core/ops/trait.ShrAssign.html' title='core::ops::ShrAssign'>ShrAssign</a>&lt;<a class='primitive' href='https://doc.rust-lang.org/nightly/std/primitive.i16.html'>i16</a>&gt; for i128"
  ; "impl <a class='trait' href='https://doc.rust-lang.org/nightly/core/ops/trait.ShrAssign.html' title='core::ops::ShrAssign'>ShrAssign</a>&lt;<a class='primitive' href='https://doc.rust-lang.org/nightly/std/primitive.i32.html'>i32</a>&gt; for i128"
  ; "impl <a class='trait' href='https://doc.rust-lang.org/nightly/core/ops/trait.ShrAssign.html' title='core::ops::ShrAssign'>ShrAssign</a>&lt;<a class='primitive' href='https://doc.rust-lang.org/nightly/std/primitive.i64.html'>i64</a>&gt; for i128"
  ; "impl <a class='trait' href='https://doc.rust-lang.org/nightly/core/ops/trait.ShrAssign.html' title='core::ops::ShrAssign'>ShrAssign</a>&lt;<a class='primitive' href='https://doc.rust-lang.org/nightly/std/primitive.isize.html'>isize</a>&gt; for i128" ].

(** Lines 1 and 2: [var implementors = {}] followed by the assignment of
    the array to its ["fasthash"] property. *)
Definition implementors : jsval :=
  let implementors : list (string * jsval) := [] in
  let implementors :=
    props_set "fasthash" (JArray (JString <$> fasthash_implementors))
              implementors in
  JObject implementors.

(** The whole file: the function expression is called at once, has no
    [return] statement, and so evaluates to [undefined]. *)
Definition script `{Host} : M jsval :=
  publish implementors ;; mret JUndefined.

(** The page loads the file [n] times, one load after the other. *)
Fixpoint script_times `{Host} (n : nat) : M jsval :=
  match n with
  | 0 => mret JUndefined
  | S n' => script ;; script_times n'
  end.

(** ** Observing a run *)

(** The registrar handle as [publish] reads it. *)
Definition handle `{Host} (s : state) : jsval :=
  read_global (window s) "register_implementors".

(** The pending buffer as a reader of [window.pending_implementors] sees
    it. *)
Definition pending `{Host} (s : state) : jsval :=
  read_global (window s) "pending_implementors".

(** The events a computation adds to the trace when run from [s]. *)
Definition emitted `{Host} {A} (m : M A) (s : state) : list event :=
  drop (length (trace s)) (trace (m s).2).

(** The value an event hands to the page: the first argument of a call,
    the value of a write. *)
Definition handed_over (e : event) : jsval :=
  match e with
  | EvCall _ args => default JUndefined (head args)
  | EvWrite _ v => v
  end.

(** ** The descriptor list, as the specification describes it *)

(** The generic parameters of line 2, in the order the file lists them. *)
Definition rhs_types : list string :=
  ["u8"; "u16"; "u32"; "u64"; "usize"; "i8"; "i16"; "i32"; "i64"; "isize"].

(** The descriptor of [impl ShrAssign<rhs> for self], as rustdoc renders
    it. *)
Definition shr_assign_descriptor (rhs self : string) : string :=
  "impl <a class='trait' href='https://doc.rust-lang.org/nightly/core/ops/trait.ShrAssign.html' title='core::ops::ShrAssign'>ShrAssign</a>&lt;<a class='primitive' href='https://doc.rust-lang.org/nightly/std/primitive."
  +:+ rhs +:+ ".html'>" +:+ rhs +:+ "</a>&gt; for " +:+ self.

(** The descriptor list as the specification words it: the ten impls for
    [u128] followed by the ten for [i128], each over [rhs_types] in
    order. *)
Definition described_implementors : list string :=
  self ← ["u128"; "i128"]; rhs ← rhs_types; [shr_assign_descriptor rhs self].

(** ** The Core Registrar and the page *)

(** Modelled from the spec: the state of the Core Registrar, which the
    shared site script owns and which is not among the sources: its
    running display model, keyed by library identifier, and the number of
    render passes it has triggered. *)
Record registrar_state := Registrar {
  display : gmap string jsval;
  renders : nat
}.

(** The entries (own properties) of a payload; a value that is not a plain
    object has none. *)
Definition entries (p : jsval) : list (string * jsval) :=
  match p with
  | JObject ps => ps
  | _ => []
  end.

(** Modelled from the spec: the merge performed by the acceptance
    operation of the shared site script (section 4.2), keyed by library
    identifier, last write wins per key. *)
Definition merge_entries (d : gmap string jsval) (ps : list (string * jsval))
  : gmap string jsval :=
  foldl (λ d kv, <[kv.1 := kv.2]> d) d ps.

(** Modelled from the spec: the acceptance operation of the Core Registrar
    (section 4.2), absent from the sources: merge the entries of the
    incoming payload into the display model, then trigger a render pass. *)
Definition accept (p : jsval) (r : registrar_state) : registrar_state :=
  {| display := merge_entries (display r) (entries p);
     renders := S (renders r) |}.

(** Modelled from the spec: the function object the shared site script
    installs under the registrar global. *)
Definition registrar : fnid := 1%positive.

(** Modelled from the spec: a page whose only function object is the Core
    Registrar; calling it accepts its first argument and leaves the global
    object alone.  Any other identity stands for no function of the page
    and is given the behaviour of an empty function. *)
Definition page_host : Host :=
  {| hstate := registrar_state;
     call_fn := λ f args w r,
       if decide (f = registrar)
       then (Return JUndefined, w, accept (default JUndefined (head args)) r)
       else (Return JUndefined, w, r) |}.

(** A page whose registrar rejects what it is given: the call throws the
    argument back and changes nothing. *)
Definition failing_host : Host :=
  {| hstate := unit;
     call_fn := λ f args w r,
       (Throw (Thrown (default JUndefined (head args))), w, r) |}.

(** Modelled from the spec: the [install] transition of the shared site
    script (section 4.2, Initialization), absent from the sources: install
    the registrar handle, then, if the pending buffer is non-empty, process
    the staged payload as if it had just been published and clear the
    buffer. *)
Definition install `{Host} : M unit :=
  set_global "register_implementors" (JFunction registrar) ;;
  p ← get_global "pending_implementors";
  if to_boolean p then
    publish p ;; set_global "pending_implementors" JUndefined
  else
    mret tt.

(** Modelled from the spec: the data files of a page run one after the
    other, each handing over its own payload. *)
Fixpoint publish_all `{Host} (ps : list jsval) : M unit :=
  match ps with
  | [] => mret tt
  | p :: ps' => publish p ;; publish_all ps'
  end.

(** Modelled from the spec: the history of a page (section 4.2, state
    machine): the data files [pre] run while the page is Uninitialized,
    then [install], then the data files [post]. *)
Definition page_run `{Host} (pre post : list jsval) : M unit :=
  publish_all pre ;; install ;; publish_all post.

(** The payloads the registrar was called with, in order. *)
Definition deliveries (t : list event) : list jsval :=
  t ≫= λ e,
    match e with
    | EvCall f args =>
        if decide (f = registrar) then [default JUndefined (head args)] else []
    | EvWrite _ _ => []
    end.

(** Exactly-once delivery over a page history: the payloads the registrar
    received are, up to order, the payloads that were published. *)
Definition exactly_once_delivery `{Host} (s : state) (pre post : list jsval)
  : Prop :=
  deliveries (emitted (page_run pre post) s) ≡ₚ pre ++ post.

(** The events of [install] that drain a staged payload. *)
Definition drain_events (staged : option jsval) : list event :=
  match staged with
  | Some p => [EvCall registrar [p]; EvWrite "pending_implementors" JUndefined]
  | None => []
  end.

(** The global object after the data files [pre] ran on an Uninitialized
    page: the single pending slot holds the last payload, if any. *)
Definition staged_window (w : gmap string jsval) (pre : list jsval)
  : gmap string jsval :=
  match last pre with
  | Some p => <["pending_implementors" := p]> w
  | None => w
  end.

(** ** Concrete payloads and pages *)

Definition libA_payload : jsval :=
  JObject [("libA", JArray [JString "x"; JString "y"])].

Definition libB_payload : jsval :=
  JObject [("libB", JArray [JString "z"])].

(** A fresh page: no global set, nothing displayed, nothing done yet. *)
Definition fresh_page : @state page_host :=
  @State page_host ∅ {| display := ∅; renders := 0 |} [].

(** The fresh page after some unrelated earlier activity of the script. *)
Definition fresh_page_later : @state page_host :=
  @State page_host ∅ {| display := ∅; renders := 0 |}
         [EvWrite "pending_implementors" JUndefined].

(** A page on which the shared script has already installed the
    registrar. *)
Definition ready_page : @state page_host :=
  @State page_host {["register_implementors" := JFunction registrar]}
         {| display := ∅; renders := 0 |} [].

(** A ready page on which an earlier payload is still staged. *)
Definition ready_page_with_staged : @state page_host :=
  @State page_host
         (<["pending_implementors" := libB_payload]>
            {["register_implementors" := JFunction registrar]})
         {| display := ∅; renders := 0 |} [].

(** A page whose registrar global holds a truthy value that is not a
    function. *)
Definition broken_page : @state page_host :=
  @State page_host {["register_implementors" := JBool true]}
         {| display := ∅; renders := 0 |} [].

(** A page whose registrar global exists and holds [null]. *)
Definition null_handle_page : @state page_host :=
  @State page_host {["register_implementors" := JNull]}
         {| display := ∅; renders := 0 |} [].

(** A page whose registrar throws. *)
Definition failing_page : @state failing_host :=
  @State failing_host {["register_implementors" := JFunction registrar]} tt [].

(** An Uninitialized page on which an earlier payload is staged. *)
Definition staged_page : @state page_host :=
  @State page_host {["pending_implementors" := libB_payload]}
         {| display := ∅; renders := 0 |} [].

(** * Properties of the hand-off *)

(** Reading a global back after some writes. *)
Ltac read_globals :=
  unfold handle, pending, read_global in *; simpl;
  repeat first [rewrite lookup_insert_eq | rewrite lookup_insert_ne by done];
  done.

Section Handoff.
Context `{Host}.

Implicit Types (s : state) (P v : jsval) (f : fnid) (k : string).

Lemma emitted_app {A} (m : M A) s evs :
  trace (m s).2 = trace s ++ evs → emitted m s = evs.
Proof. intros E. unfold emitted. rewrite E. apply drop_app_length. Qed.

Lemma emitted_nil {A} (m : M A) s :
  (m s).2 = s → emitted m s = [].
Proof.
  intros E. apply emitted_app. rewrite E. by rewrite app_nil_r.
Qed.

(** The [else] branch, written out. *)
Lemma publish_falsy s P :
  to_boolean (handle s) = false →
  publish P s =
    (Return tt,
     {| window := <["pending_implementors" := P]> (window s);
        host := host s;
        trace := trace s ++ [EvWrite "pending_implementors" P] |}).
Proof.
  intros Hf. unfold publish, mbind, M_bind, get_global; simpl.
  fold (handle s). by rewrite Hf.
Qed.

(** The [then] branch is the call expression applied to the handle. *)
Lemma publish_truthy s P :
  to_boolean (handle s) = true →
  publish P s = (call (handle s) [P] ;; mret tt) s.
Proof.
  intros Ht. unfold publish, mbind, M_bind, get_global; simpl.
  fold (handle s). by rewrite Ht.
Qed.

(** The [then] branch when the handle is a function object. *)
Lemma publish_function s P f :
  handle s = JFunction f →
  publish P s =
    (match (call_fn f [P] (window s) (host s)).1.1 with
     | Return _ => Return tt
     | Throw e => Throw e
     end,
     {| window := (call_fn f [P] (window s) (host s)).1.2;
        host := (call_fn f [P] (window s) (host s)).2;
        trace := trace s ++ [EvCall f [P]] |}).
Proof.
  intros Hh. rewrite publish_truthy; [|by rewrite Hh].
  unfold mbind, M_bind, call, mret, M_ret. rewrite Hh.
  destruct (call_fn f [P] (window s) (host s)) as [[[r|e] w] h]; done.
Qed.

(** A truthy handle that is not a function object makes the call raise. *)
Lemma publish_not_callable s P :
  to_boolean (handle s) = true →
  (∀ f, handle s ≠ JFunction f) →
  publish P s = (Throw TypeError, s).
Proof.
  intros Ht Hn. rewrite publish_truthy by done.
  unfold mbind, M_bind, call.
  destruct (handle s); try done. by destruct (Hn f).
Qed.

(** C4. Uninitialized path: when the registrar handle is absent (reads
    falsy), [publish P] completes normally, the pending buffer holds
    exactly [P] afterwards whatever it held before, the only event is
    that one write, and no function is called. *)
Theorem publish_uninitialized_stages s P :
  to_boolean (handle s) = false →
  (publish P s).1 = Return tt ∧
  window (publish P s).2 !! "pending_implementors" = Some P ∧
  window (publish P s).2 = <["pending_implementors" := P]> (window s) ∧
  emitted (publish P) s = [EvWrite "pending_implementors" P] ∧
  (∀ g args, EvCall g args ∉ emitted (publish P) s).
Proof.
  intros Hf.
  assert (Hem : emitted (publish P) s = [EvWrite "pending_implementors" P]).
  { apply emitted_app. by rewrite publish_falsy. }
  rewrite Hem, publish_falsy by done; simpl.
  split_and!; try done.
  - apply lookup_insert_eq.
  - intros g args Hin. by apply list_elem_of_singleton in Hin.
Qed.

(** The three ways [publish] can go, by the value of the handle. *)
Lemma publish_cases s P :
  (to_boolean (handle s) = false ∧
   emitted (publish P) s = [EvWrite "pending_implementors" P]) ∨
  (∃ f, handle s = JFunction f ∧ emitted (publish P) s = [EvCall f [P]]) ∨
  (to_boolean (handle s) = true ∧ (∀ f, handle s ≠ JFunction f) ∧
   emitted (publish P) s = []).
Proof.
  destruct (to_boolean (handle s)) eqn:Hb.
  - destruct (handle s) as [| | | | | | |f] eqn:Hh;
      try (right; right; split_and!; [done..|];
           apply emitted_nil; by rewrite publish_not_callable; rewrite ?Hh).
    right; left. exists f. split; [done|].
    apply emitted_app. by rewrite (publish_function s P f).
  - left. split; [done|]. apply emitted_app. by rewrite publish_falsy.
Qed.

(** C3. Ready path: when the registrar handle holds a function object,
    [publish P] calls that function exactly once, with [P] as its only
    argument, on the page exactly as [publish] found it; the page that call
    leaves is the page [publish] leaves, [publish] itself writes no global
    (in particular not the pending buffer), and it returns as soon as the
    call returns. *)
Theorem publish_ready_invokes_once s P f :
  handle s = JFunction f →
  emitted (publish P) s = [EvCall f [P]] ∧
  window (publish P s).2 = (call_fn f [P] (window s) (host s)).1.2 ∧
  host (publish P s).2 = (call_fn f [P] (window s) (host s)).2 ∧
  (∀ k v, EvWrite k v ∉ emitted (publish P) s) ∧
  (∀ v, (call_fn f [P] (window s) (host s)).1.1 = Return v →
        (publish P s).1 = Return tt).
Proof.
  intros Hh.
  assert (Hem : emitted (publish P) s = [EvCall f [P]]).
  { apply emitted_app. by rewrite (publish_function s P f). }
  rewrite Hem, (publish_function s P f) by done; simpl.
  split_and!; try done.
  - intros k v Hin. by apply list_elem_of_singleton in Hin.
  - by intros v ->.
Qed.

(** Whatever [publish P] hands to the page is [P]. *)
Lemma emitted_publish_handed_over s P e :
  e ∈ emitted (publish P) s → handed_over e = P.
Proof.
  intros He.
  destruct (publish_cases s P) as [[_ Hem]|[[f [_ Hem]]|(_ & _ & Hem)]];
    rewrite Hem in He.
  - by apply list_elem_of_singleton in He as ->.
  - by apply list_elem_of_singleton in He as ->.
  - by apply elem_of_nil in He.
Qed.

(** C5. The payload is passed through untouched: whatever [publish P]
    hands to the page, as the argument of the registrar call or as the
    value written to the pending buffer, is [P] itself, so it has the same
    keys in the same order and, under each key, the same descriptor
    sequence; and one of the two hand-offs happens whenever the handle is
    falsy or a function. *)
Theorem publish_passes_payload_unchanged s P :
  (∀ e, e ∈ emitted (publish P) s →
        handed_over e = P ∧
        own_keys (handed_over e) = own_keys P ∧
        ∀ k, get_prop (handed_over e) k = get_prop P k) ∧
  (to_boolean (handle s) = false →
     emitted (publish P) s = [EvWrite "pending_implementors" P] ∧
     pending (publish P s).2 = P) ∧
  (∀ f, handle s = JFunction f → emitted (publish P) s = [EvCall f [P]]).
Proof.
  split_and!.
  - intros e He. by rewrite (emitted_publish_handed_over s P e He).
  - intros Hf. split.
    + apply emitted_app. by rewrite publish_falsy.
    + rewrite publish_falsy by done. read_globals.
  - intros f Hh. apply emitted_app. by rewrite (publish_function s P f).
Qed.

(** C7, as amended. [publish] has no error condition of its own and no
    return value.  With a falsy handle it stages the payload and completes
    normally; with a function handle its one effect is the call, and it
    completes normally when the call does and abruptly, with the same
    exception, when the call throws; with a truthy handle that is not a
    function the call raises [TypeError] and the page is left as it was. *)
Theorem publish_completion s P :
  (to_boolean (handle s) = false →
     (publish P s).1 = Return tt ∧
     emitted (publish P) s = [EvWrite "pending_implementors" P]) ∧
  (∀ f, handle s = JFunction f →
     emitted (publish P) s = [EvCall f [P]] ∧
     (publish P s).1 =
       match (call_fn f [P] (window s) (host s)).1.1 with
       | Return _ => Return tt
       | Throw e => Throw e
       end) ∧
  (to_boolean (handle s) = true → (∀ f, handle s ≠ JFunction f) →
     publish P s = (Throw TypeError, s)).
Proof.
  split_and!.
  - intros Hf. split; [by rewrite publish_falsy|].
    apply emitted_app. by rewrite publish_falsy.
  - intros f Hh. split; [|by rewrite (publish_function s P f)].
    apply emitted_app. by rewrite (publish_function s P f).
  - apply publish_not_callable.
Qed.

(** C8, as amended.  The branch is chosen by the truthiness of the
    handle, not by its being defined.  A truthy handle sends [publish] into
    the call of that handle with the payload and nothing is staged: if the
    handle is a function it is invoked, exactly once, with the payload; if
    it is truthy but not a function the call raises [TypeError] and nothing
    is invoked.  A falsy handle, be it a missing global or one holding
    [undefined], [null], [false], a zero, [NaN] or the empty string, sends
    it into the assignment to the pending buffer, and nothing is invoked.
    Conversely a function is invoked only when it is the (truthy) handle,
    and a global is written only under a falsy handle. *)
Theorem publish_dispatch_by_truthiness s P :
  (to_boolean (handle s) = true →
     publish P s = (call (handle s) [P] ;; mret tt) s ∧
     ∀ k v, EvWrite k v ∉ emitted (publish P) s) ∧
  (∀ f, handle s = JFunction f →
     to_boolean (handle s) = true ∧
     emitted (publish P) s = [EvCall f [P]] ∧
     window (publish P s).2 = (call_fn f [P] (window s) (host s)).1.2 ∧
     host (publish P s).2 = (call_fn f [P] (window s) (host s)).2) ∧
  (to_boolean (handle s) = true → (∀ f, handle s ≠ JFunction f) →
     publish P s = (Throw TypeError, s) ∧
     emitted (publish P) s = []) ∧
  (to_boolean (handle s) = false →
     publish P s = set_global "pending_implementors" P s ∧
     (publish P s).1 = Return tt ∧
     pending (publish P s).2 = P ∧
     emitted (publish P) s = [EvWrite "pending_implementors" P] ∧
     ∀ f args, EvCall f args ∉ emitted (publish P) s) ∧
  (∀ f args, EvCall f args ∈ emitted (publish P) s →
     to_boolean (handle s) = true ∧ handle s = JFunction f ∧ args = [P]) ∧
  (∀ k v, EvWrite k v ∈ emitted (publish P) s →
     to_boolean (handle s) = false ∧ k = "pending_implementors" ∧ v = P) ∧
  (∀ v, window s !! "register_implementors" = Some v →
     v ∈ [JUndefined; JNull; JBool false; JNumber 0; JNumber (-0);
          JNumber nan; JString ""] →
     (publish P s).1 = Return tt ∧ pending (publish P s).2 = P ∧
     emitted (publish P) s = [EvWrite "pending_implementors" P]).
Proof.
  assert (Hst : to_boolean (handle s) = false →
                (publish P s).1 = Return tt ∧
                pending (publish P s).2 = P ∧
                emitted (publish P) s = [EvWrite "pending_implementors" P]).
  { intros Hf. split_and!.
    - by rewrite publish_falsy.
    - rewrite publish_falsy by done. read_globals.
    - apply emitted_app. by rewrite publish_falsy. }
  split_and!.
  - intros Ht. split; [by apply publish_truthy|].
    intros k v Hin.
    destruct (publish_cases s P) as [[Hf _]|[[f [_ Hem]]|(_ & _ & Hem)]];
      [congruence|rewrite Hem in Hin..].
    + by apply list_elem_of_singleton in Hin.
    + by apply elem_of_nil in Hin.
  - intros f Hh. split; [by rewrite Hh|].
    rewrite (emitted_app (publish P) s [EvCall f [P]])
      by by rewrite (publish_function s P f).
    by rewrite (publish_function s P f).
  - intros Ht Hn. split; [by apply publish_not_callable|].
    apply emitted_nil. by rewrite publish_not_callable.
  - intros Hf. destruct (Hst Hf) as (Ho & Hp & Hem).
    split_and!; [by rewrite publish_falsy|done..|].
    intros f args Hin. rewrite Hem in Hin.
    by apply list_elem_of_singleton in Hin.
  - intros f args Hin.
    destruct (publish_cases s P) as [[_ Hem]|[[g [Hg Hem]]|(_ & _ & Hem)]];
      rewrite Hem in Hin.
    + by apply list_elem_of_singleton in Hin.
    + apply list_elem_of_singleton in Hin. injection Hin as -> ->.
      by rewrite Hg.
    + by apply elem_of_nil in Hin.
  - intros k v Hin.
    destruct (publish_cases s P) as [[Hf Hem]|[[g [_ Hem]]|(_ & _ & Hem)]];
      rewrite Hem in Hin.
    + apply list_elem_of_singleton in Hin. by injection Hin as -> ->.
    + by apply list_elem_of_singleton in Hin.
    + by apply elem_of_nil in Hin.
  - intros v Hv Hin. apply Hst.
    unfold handle, read_global. rewrite Hv; simpl.
    repeat (apply elem_of_cons in Hin as [->|Hin]; [reflexivity|]).
    by apply elem_of_nil in Hin.
Qed.

(** C9. Frame.  On the Ready path [publish] writes no global at all: the
    global object and the host state it leaves are those the registrar
    call returned, so every global that call leaves alone, the pending
    buffer and anything staged there included, is as before.  On the
    Uninitialized path every global but the pending buffer, the registrar
    handle included, and the whole host state are as before.  (A truthy
    handle that cannot be called leaves the whole page as it was.) *)
Theorem publish_frame s P :
  (∀ f, handle s = JFunction f →
     (∀ k v, EvWrite k v ∉ emitted (publish P) s) ∧
     window (publish P s).2 = (call_fn f [P] (window s) (host s)).1.2 ∧
     host (publish P s).2 = (call_fn f [P] (window s) (host s)).2 ∧
     (∀ k, (call_fn f [P] (window s) (host s)).1.2 !! k = window s !! k →
           window (publish P s).2 !! k = window s !! k)) ∧
  (to_boolean (handle s) = false →
     (∀ k, k ≠ "pending_implementors" →
           window (publish P s).2 !! k = window s !! k) ∧
     handle (publish P s).2 = handle s ∧
     host (publish P s).2 = host s) ∧
  (to_boolean (handle s) = true → (∀ f, handle s ≠ JFunction f) →
     (publish P s).2 = s).
Proof.
  split_and!.
  - intros f Hh.
    assert (Hem : emitted (publish P) s = [EvCall f [P]]).
    { apply emitted_app. by rewrite (publish_function s P f). }
    rewrite Hem, (publish_function s P f) by done; simpl.
    split_and!; try done.
    intros k v Hin. by apply list_elem_of_singleton in Hin.
  - intros Hf. rewrite publish_falsy by done; simpl. split_and!.
    + intros k Hk. by rewrite lookup_insert_ne.
    + read_globals.
    + done.
  - intros Ht Hn. by rewrite publish_not_callable.
Qed.

(** C6. On every run the file builds the object with the single key
    ["fasthash"], whose value is the array of the twenty descriptors (the
    ten [ShrAssign<Rhs>] impls for [u128], then the ten for [i128], each
    over [u8, u16, u32, u64, usize, i8, i16, i32, i64, isize] in that
    order), and then runs [publish] on it. *)
Theorem script_builds_fasthash_payload s :
  script s =
    (publish (JObject [("fasthash", JArray (JString <$> described_implementors))])
       ;; mret JUndefined) s ∧
  implementors =
    JObject [("fasthash", JArray (JString <$> described_implementors))] ∧
  own_keys implementors = ["fasthash"] ∧
  get_prop implementors "fasthash" = JArray (JString <$> fasthash_implementors) ∧
  length fasthash_implementors = 20 ∧
  fasthash_implementors = described_implementors.
Proof.
  assert (E : fasthash_implementors = described_implementors)
    by (vm_compute; reflexivity).
  unfold script, implementors; simpl. rewrite E. by split_and!.
Qed.

Lemma bind_return {A B} (m : M A) (k : A → M B) s a s' :
  m s = (Return a, s') → (m ≫= k) s = k a s'.
Proof. intros E. unfold mbind, M_bind. by rewrite E. Qed.

Lemma script_unfold s :
  script s =
    (match (publish implementors s).1 with
     | Return _ => Return JUndefined
     | Throw e => Throw e
     end, (publish implementors s).2).
Proof.
  unfold script, mbind, M_bind.
  by destruct (publish implementors s) as [[[]|e] s'].
Qed.

(** What [publish] does depends on the global object and the host state
    only, not on what the script did before. *)
Lemma publish_same_page s1 s2 P :
  window s1 = window s2 → host s1 = host s2 →
  (publish P s1).1 = (publish P s2).1 ∧
  window (publish P s1).2 = window (publish P s2).2 ∧
  host (publish P s1).2 = host (publish P s2).2 ∧
  emitted (publish P) s1 = emitted (publish P) s2.
Proof.
  intros Hw Hh.
  assert (Hhd : handle s1 = handle s2) by (unfold handle; by rewrite Hw).
  destruct (publish_cases s1 P) as [[Hf Hem]|[[f [Hf Hem]]|(Ht & Hn & Hem)]];
    rewrite Hem.
  - assert (Hf2 : to_boolean (handle s2) = false) by by rewrite <-Hhd.
    rewrite (emitted_app (publish P) s2 [EvWrite "pending_implementors" P])
      by by rewrite publish_falsy.
    rewrite !publish_falsy by done; simpl. by rewrite Hw, Hh.
  - assert (Hf2 : handle s2 = JFunction f) by by rewrite <-Hhd.
    rewrite (emitted_app (publish P) s2 [EvCall f [P]])
      by by rewrite (publish_function s2 P f).
    rewrite (publish_function s1 P f), (publish_function s2 P f) by done.
    simpl. by rewrite Hw, Hh.
  - assert (Ht2 : to_boolean (handle s2) = true) by by rewrite <-Hhd.
    assert (Hn2 : ∀ f, handle s2 ≠ JFunction f) by by rewrite <-Hhd.
    rewrite (emitted_nil (publish P) s2) by by rewrite publish_not_callable.
    by rewrite !publish_not_callable.
Qed.

(** C10. Determinism.  The payload the file hands over is the same closed
    value on every run, whatever the page looks like; and two runs from
    pages with the same global object and host state end the same way,
    leave the same global object and host state, and perform the same
    events. *)
Theorem script_deterministic s1 s2 :
  (∀ e1 e2, e1 ∈ emitted script s1 → e2 ∈ emitted script s2 →
     handed_over e1 = implementors ∧ handed_over e2 = handed_over e1) ∧
  (window s1 = window s2 → host s1 = host s2 →
     (script s1).1 = (script s2).1 ∧
     window (script s1).2 = window (script s2).2 ∧
     host (script s1).2 = host (script s2).2 ∧
     emitted script s1 = emitted script s2).
Proof.
  assert (Hem : ∀ s, emitted script s = emitted (publish implementors) s).
  { intros s. unfold emitted. by rewrite script_unfold. }
  split.
  - intros e1 e2. rewrite !Hem. intros H1 H2.
    apply emitted_publish_handed_over in H1 as ->.
    by apply emitted_publish_handed_over in H2 as ->.
  - intros Hw Hh. rewrite !Hem, !script_unfold; simpl.
    destruct (publish_same_page s1 s2 implementors Hw Hh) as (-> & -> & -> & ->).
    done.
Qed.

End Handoff.

(** * The page: data files and the registrar together *)

Section Page.
#[local] Existing Instance page_host.

Implicit Types (s : @state page_host) (P : jsval) (pre post : list jsval).

Lemma deliveries_app t1 t2 :
  deliveries (t1 ++ t2) = deliveries t1 ++ deliveries t2.
Proof. apply bind_app. Qed.

Lemma deliveries_writes k (vs : list jsval) :
  deliveries (EvWrite k <$> vs) = [].
Proof.
  induction vs as [|v vs IH]; [done|].
  rewrite fmap_cons. unfold deliveries in *. by rewrite bind_cons, IH.
Qed.

Lemma deliveries_calls (ps : list jsval) :
  deliveries ((λ p, EvCall registrar [p]) <$> ps) = ps.
Proof.
  induction ps as [|p ps IH]; [done|].
  rewrite fmap_cons. unfold deliveries in *. by rewrite bind_cons, IH.
Qed.

Lemma deliveries_drain (staged : option jsval) :
  deliveries (drain_events staged) = option_list staged.
Proof. by destruct staged. Qed.

(** On this page a call of the registrar accepts the payload and returns. *)
Lemma publish_ready_page s P :
  handle s = JFunction registrar →
  publish P s =
    (Return tt,
     @State page_host (window s) (accept P (host s))
            (trace s ++ [EvCall registrar [P]])).
Proof. intros Hh. by rewrite (publish_function s P registrar). Qed.

(** Data files that run before [install] each overwrite the one slot. *)
Lemma publish_all_uninitialized s pre :
  to_boolean (handle s) = false →
  publish_all pre s =
    (Return tt,
     @State page_host (staged_window (window s) pre) (host s)
            (trace s ++ (EvWrite "pending_implementors" <$> pre))).
Proof.
  revert s. induction pre as [|p pre IH]; intros s Hf.
  - destruct s. simpl. unfold mret, M_ret. by rewrite app_nil_r.
  - simpl. rewrite (bind_return _ _ s tt _ (publish_falsy s p Hf)).
    rewrite IH; simpl.
    + f_equal. f_equal.
      * unfold staged_window. rewrite last_cons.
        destruct (last pre); [|done]. apply insert_insert_eq.
      * by rewrite <-app_assoc.
    + read_globals.
Qed.

(** Data files that run after [install] are each accepted at once. *)
Lemma publish_all_ready s post :
  handle s = JFunction registrar →
  publish_all post s =
    (Return tt,
     @State page_host (window s) (foldl (flip accept) (host s) post)
            (trace s ++ ((λ p, EvCall registrar [p]) <$> post))).
Proof.
  revert s. induction post as [|p post IH]; intros s Hh.
  - destruct s. simpl. unfold mret, M_ret. by rewrite app_nil_r.
  - simpl. rewrite (bind_return _ _ s tt _ (publish_ready_page s p Hh)).
    rewrite IH; simpl; [|done]. by rewrite <-app_assoc.
Qed.

(** [install], written out: the handle is set, and a truthy pending value
    is accepted and the slot cleared. *)
Lemma install_run s :
  install s =
    (Return tt,
     if to_boolean (pending s) then
       @State page_host
         (<["pending_implementors" := JUndefined]>
            (<["register_implementors" := JFunction registrar]> (window s)))
         (accept (pending s) (host s))
         (trace s ++ [EvWrite "register_implementors" (JFunction registrar)]
                  ++ drain_events (Some (pending s)))
     else
       @State page_host
         (<["register_implementors" := JFunction registrar]> (window s))
         (host s)
         (trace s ++ [EvWrite "register_implementors" (JFunction registrar)])).
Proof.
  assert (Hp : read_global (<["register_implementors" := JFunction registrar]>
                              (window s)) "pending_implementors" = pending s).
  { read_globals. }
  unfold install, mbind, M_bind, set_global at 1, get_global; simpl.
  rewrite Hp. destruct (to_boolean (pending s)); [|done].
  rewrite publish_ready_page; simpl.
  - unfold set_global; simpl. by rewrite <-!app_assoc.
  - read_globals.
Qed.

Lemma staged_pending s pre :
  read_global (staged_window (window s) pre) "pending_implementors" =
    default (pending s) (last pre).
Proof.
  unfold staged_window, pending, read_global.
  destruct (last pre); simpl; [by rewrite lookup_insert_eq|done].
Qed.

Lemma last_is_object pre p :
  forallb is_object pre = true → last pre = Some p → to_boolean p = true.
Proof.
  intros Hall Hl. apply last_Some_elem_of, list_elem_of_In in Hl.
  rewrite forallb_forall in Hall. specialize (Hall _ Hl). by destruct p.
Qed.

(** A whole page history from an Uninitialized page with an empty buffer:
    the registrar receives the last payload staged before [install], if
    any, and then every payload published after it. *)
Lemma page_run_uninitialized s pre post :
  to_boolean (handle s) = false →
  to_boolean (pending s) = false →
  forallb is_object pre = true →
  ∃ w,
    page_run pre post s =
      (Return tt,
       @State page_host w
         (foldl (flip accept) (host s) (option_list (last pre) ++ post))
         (trace s ++ (EvWrite "pending_implementors" <$> pre)
                  ++ [EvWrite "register_implementors" (JFunction registrar)]
                  ++ drain_events (last pre)
                  ++ ((λ p, EvCall registrar [p]) <$> post))) ∧
    read_global w "register_implementors" = JFunction registrar.
Proof.
  intros Hf Hp Hobj. unfold page_run.
  rewrite (bind_return _ _ s tt _ (publish_all_uninitialized s pre Hf)).
  erewrite bind_return; [|apply install_run].
  unfold pending; simpl. rewrite !staged_pending.
  destruct (last pre) as [p|] eqn:Hl; simpl.
  - rewrite (last_is_object pre p Hobj Hl).
    rewrite publish_all_ready; simpl.
    + eexists. split.
      * rewrite <-!app_assoc. reflexivity.
      * read_globals.
    + read_globals.
  - rewrite Hp. rewrite publish_all_ready; simpl.
    + eexists. split.
      * rewrite <-!app_assoc. reflexivity.
      * read_globals.
    + read_globals.
Qed.

Lemma merge_entries_lookup_notin (d : gmap string jsval) ps k :
  k ∉ ps.*1 → merge_entries d ps !! k = d !! k.
Proof.
  revert d. induction ps as [|[k' v'] ps IH]; intros d Hk; [done|].
  simpl in *. apply not_elem_of_cons in Hk as [Hne Hk].
  unfold merge_entries in *; simpl. rewrite IH by done.
  by rewrite lookup_insert_ne.
Qed.

Lemma merge_entries_lookup (d : gmap string jsval) ps k v :
  NoDup ps.*1 → (k, v) ∈ ps → merge_entries d ps !! k = Some v.
Proof.
  revert d. induction ps as [|[k' v'] ps IH]; intros d Hnd Hin.
  - by apply elem_of_nil in Hin.
  - simpl in Hnd. apply NoDup_cons in Hnd as [Hk' Hnd].
    apply elem_of_cons in Hin as [[= -> ->]|Hin].
    + change (merge_entries (<[k':=v']> d) ps !! k' = Some v').
      rewrite merge_entries_lookup_notin by done. apply lookup_insert_eq.
    + by apply (IH (<[k':=v']> d)).
Qed.

Lemma merge_entries_dom (d : gmap string jsval) ps :
  dom (merge_entries d ps) = dom d ∪ list_to_set ps.*1.
Proof.
  revert d. induction ps as [|[k v] ps IH]; intros d.
  - simpl. by rewrite (right_id_L ∅ (∪)).
  - change (dom (merge_entries (<[k:=v]> d) ps) =
            dom d ∪ ({[k]} ∪ list_to_set ps.*1)).
    rewrite IH, dom_insert_L.
    by rewrite (comm_L (∪) {[k]} (dom d)), (assoc_L (∪)).
Qed.

(** One data file before [install] is the same as one data file after. *)
Lemma page_run_publish_install s P :
  page_run [P] [] s = (publish P ;; install) s.
Proof.
  unfold page_run, publish_all, mbind, M_bind, mret, M_ret.
  destruct (publish P s) as [[[]|e] s1]; [|done].
  by destruct (install s1) as [[[]|e] s2].
Qed.

Lemma page_run_install_publish s P :
  page_run [] [P] s = (install ;; publish P) s.
Proof.
  unfold page_run, publish_all, mbind, M_bind, mret, M_ret.
  destruct (install s) as [[[]|e] s1]; [|done].
  by destruct (publish P s1) as [[[]|e] s2].
Qed.

(** C1, as amended.  From an Uninitialized page with an empty buffer, let
    the data files [pre] run, then [install], then the data files [post].
    The history completes normally and the registrar is called with
    exactly these payloads, once each and in this order: the last payload
    of [pre], if there is one, then every payload of [post]; its state is
    the result of accepting them in that order.  Hence, when at most one
    data file runs before [install], every published payload is delivered
    exactly once. *)
Theorem page_delivers_last_staged_and_later s pre post :
  to_boolean (handle s) = false →
  to_boolean (pending s) = false →
  forallb is_object pre = true →
  (page_run pre post s).1 = Return tt ∧
  deliveries (emitted (page_run pre post) s) = option_list (last pre) ++ post ∧
  host (page_run pre post s).2 =
    foldl (flip accept) (host s) (option_list (last pre) ++ post) ∧
  (length pre ≤ 1 →
     deliveries (emitted (page_run pre post) s) = pre ++ post ∧
     exactly_once_delivery s pre post).
Proof.
  intros Hf Hp Hobj.
  destruct (page_run_uninitialized s pre post Hf Hp Hobj) as (w & Hrun & _).
  assert (Hd : deliveries (emitted (page_run pre post) s) =
               option_list (last pre) ++ post).
  { erewrite emitted_app; [|by rewrite Hrun].
    rewrite !deliveries_app, deliveries_writes, deliveries_drain,
      deliveries_calls. done. }
  rewrite Hrun; simpl. split_and!; [done..|].
  intros Hlen. unfold exactly_once_delivery. rewrite Hd.
  destruct pre as [|p [|q pre]]; simpl in *; [done|done|lia].
Qed.

(** C2, as amended.  From an Uninitialized page whose pending buffer is
    empty, publishing an object [P] and then installing the registrar, and
    installing the registrar and then publishing [P], both complete
    normally, deliver [P] to the registrar exactly once, leave the
    registrar installed, and leave the same registrar state: the display
    model is the one before with the entries of [P] merged in.  Starting
    from an empty display model it holds exactly the keys of [P], each with
    the value [P] gives it. *)
Theorem publish_install_commute s ps :
  to_boolean (handle s) = false →
  to_boolean (pending s) = false →
  ((publish (JObject ps) ;; install) s).1 = Return tt ∧
  ((install ;; publish (JObject ps)) s).1 = Return tt ∧
  host ((publish (JObject ps) ;; install) s).2 =
    host ((install ;; publish (JObject ps)) s).2 ∧
  display (host ((publish (JObject ps) ;; install) s).2) =
    merge_entries (display (host s)) ps ∧
  deliveries (emitted (publish (JObject ps) ;; install) s) = [JObject ps] ∧
  deliveries (emitted (install ;; publish (JObject ps)) s) = [JObject ps] ∧
  handle ((publish (JObject ps) ;; install) s).2 = JFunction registrar ∧
  handle ((install ;; publish (JObject ps)) s).2 = JFunction registrar ∧
  (display (host s) = ∅ →
     dom (display (host ((publish (JObject ps) ;; install) s).2)) =
       list_to_set ps.*1 ∧
     ∀ k v, NoDup ps.*1 → (k, v) ∈ ps →
       display (host ((install ;; publish (JObject ps)) s).2) !! k = Some v).
Proof.
  intros Hf Hp.
  destruct (page_run_uninitialized s [JObject ps] [] Hf Hp eq_refl)
    as (wa & Ha & Hha).
  destruct (page_run_uninitialized s [] [JObject ps] Hf Hp eq_refl)
    as (wb & Hb & Hhb).
  rewrite page_run_publish_install in Ha.
  rewrite page_run_install_publish in Hb.
  assert (Hda : deliveries (emitted (publish (JObject ps) ;; install) s) =
                [JObject ps]).
  { erewrite emitted_app; [|by rewrite Ha]. done. }
  assert (Hdb : deliveries (emitted (install ;; publish (JObject ps)) s) =
                [JObject ps]).
  { erewrite emitted_app; [|by rewrite Hb]. done. }
  rewrite Hda, Hdb, Ha, Hb; simpl. split_and!; try done.
  intros He. rewrite He. split.
  - rewrite merge_entries_dom, dom_empty_L. apply (left_id_L ∅ (∪)).
  - intros k v. apply merge_entries_lookup.
Qed.

End Page.

(** * Runs of the file one after the other *)

Section Runs.
Context `{Host}.

Implicit Types (s : state) (P Q : jsval) (f : fnid).

(** The whole file on an Uninitialized page, written out. *)
Lemma script_falsy s :
  to_boolean (handle s) = false →
  script s =
    (Return JUndefined,
     {| window := <["pending_implementors" := implementors]> (window s);
        host := host s;
        trace := trace s ++ [EvWrite "pending_implementors" implementors] |}).
Proof. intros Hf. by rewrite script_unfold, publish_falsy. Qed.

(** X1. Two hand-offs on an Uninitialized page: both complete normally,
    the page stays Uninitialized, and the global object is the one the
    second hand-off alone would leave: the first payload is gone from the
    slot, whatever the two payloads are. *)
Theorem publish_twice_last_write_wins s P Q :
  to_boolean (handle s) = false →
  ((publish P ;; publish Q) s).1 = Return tt ∧
  window ((publish P ;; publish Q) s).2 = window (publish Q s).2 ∧
  pending ((publish P ;; publish Q) s).2 = Q ∧
  host ((publish P ;; publish Q) s).2 = host s ∧
  to_boolean (handle ((publish P ;; publish Q) s).2) = false ∧
  emitted (publish P ;; publish Q) s =
    [EvWrite "pending_implementors" P; EvWrite "pending_implementors" Q].
Proof.
  intros Hf.
  assert (Hrun : (publish P ;; publish Q) s =
            (Return tt,
             {| window := <["pending_implementors" := Q]> (window s);
                host := host s;
                trace := trace s ++ [EvWrite "pending_implementors" P;
                                     EvWrite "pending_implementors" Q] |})).
  { rewrite (bind_return _ _ s tt _ (publish_falsy s P Hf)).
    rewrite publish_falsy by read_globals. simpl.
    by rewrite insert_insert_eq, <-app_assoc. }
  rewrite (emitted_app _ s [EvWrite "pending_implementors" P;
                            EvWrite "pending_implementors" Q])
    by by rewrite Hrun.
  rewrite Hrun, (publish_falsy s Q Hf). simpl.
  split_and!; try done; read_globals.
Qed.

Lemma script_times_falsy n s :
  to_boolean (handle s) = false →
  script_times (S n) s =
    (Return JUndefined,
     {| window := <["pending_implementors" := implementors]> (window s);
        host := host s;
        trace := trace s ++
                 replicate (S n) (EvWrite "pending_implementors" implementors) |}).
Proof.
  revert s. induction n as [|n IH]; intros s Hf.
  - change (script_times 1) with (script ;; mret JUndefined).
    by rewrite (bind_return _ _ s JUndefined _ (script_falsy s Hf)).
  - change (script_times (S (S n))) with (script ;; script_times (S n)).
    rewrite (bind_return _ _ s JUndefined _ (script_falsy s Hf)).
    rewrite IH by read_globals.
    cbn [window host trace].
    by rewrite insert_insert_eq, <-app_assoc.
Qed.

(** X2. Loading the file again and again on an Uninitialized page changes
    nothing after the first load: every load completes normally, and the
    global object and the host state are those one load leaves; each load
    performs exactly the one write of the same payload. *)
Theorem script_times_uninitialized_idempotent n s :
  to_boolean (handle s) = false →
  (script_times (S n) s).1 = Return JUndefined ∧
  window (script_times (S n) s).2 = window (script s).2 ∧
  host (script_times (S n) s).2 = host (script s).2 ∧
  pending (script_times (S n) s).2 = implementors ∧
  emitted (script_times (S n)) s =
    replicate (S n) (EvWrite "pending_implementors" implementors).
Proof.
  intros Hf.
  rewrite (emitted_app _ s
             (replicate (S n) (EvWrite "pending_implementors" implementors)))
    by by rewrite script_times_falsy.
  rewrite script_times_falsy, script_falsy by done.
  cbn [fst snd window host]. split_and!; try done.
  unfold pending, read_global; cbn [window]. by rewrite lookup_insert_eq.
Qed.

Lemma script_times_function n s f :
  (∀ w h e, (call_fn f [implementors] w h).1.1 ≠ Throw e) →
  (∀ w h, read_global w "register_implementors" = JFunction f →
          read_global (call_fn f [implementors] w h).1.2
            "register_implementors" = JFunction f) →
  handle s = JFunction f →
  (script_times n s).1 = Return JUndefined ∧
  trace (script_times n s).2 =
    trace s ++ replicate n (EvCall f [implementors]) ∧
  handle (script_times n s).2 = JFunction f.
Proof.
  intros Hret Hkeep. revert s. induction n as [|n IH]; intros s Hh.
  - simpl. by rewrite app_nil_r.
  - change (script_times (S n)) with (script ;; script_times n).
    assert (Hs : script s =
              (Return JUndefined,
               {| window := (call_fn f [implementors] (window s) (host s)).1.2;
                  host := (call_fn f [implementors] (window s) (host s)).2;
                  trace := trace s ++ [EvCall f [implementors]] |})).
    { rewrite script_unfold, (publish_function s implementors f Hh).
      cbn [fst snd].
      destruct (call_fn f [implementors] (window s) (host s)).1.1 as [v|e]
        eqn:Hc; [done|]. by destruct (Hret (window s) (host s) e). }
    rewrite (bind_return _ _ s JUndefined _ Hs).
    edestruct IH as (Ho & Htr & Hhn); [|split_and!; [exact Ho| |exact Hhn]].
    + unfold handle; cbn [window]. apply Hkeep, Hh.
    + rewrite Htr. cbn [trace]. by rewrite <-app_assoc.
Qed.

(** X3. The file has no once-only guard.  On a page whose registrar
    never throws and never reassigns the registrar global, loading the file
    [n] times completes normally and calls the registrar [n] times, each
    time with the same payload, and writes no global itself. *)
Theorem script_times_ready_calls_each_time n s f :
  (∀ w h e, (call_fn f [implementors] w h).1.1 ≠ Throw e) →
  (∀ w h, read_global w "register_implementors" = JFunction f →
          read_global (call_fn f [implementors] w h).1.2
            "register_implementors" = JFunction f) →
  handle s = JFunction f →
  (script_times n s).1 = Return JUndefined ∧
  emitted (script_times n) s = replicate n (EvCall f [implementors]) ∧
  (∀ k v, EvWrite k v ∉ emitted (script_times n) s) ∧
  handle (script_times n s).2 = JFunction f.
Proof.
  intros Hret Hkeep Hh.
  destruct (script_times_function n s f Hret Hkeep Hh) as (Ho & Htr & Hhn).
  rewrite (emitted_app _ s _ Htr).
  split_and!; try done.
  intros k v Hin. by apply elem_of_replicate in Hin as [? _].
Qed.

(** X4. The [else] branch never looks at what the slot held.  Two
    Uninitialized pages that differ at most in [pending_implementors] are
    left with the same global object: nothing of an earlier staged value
    survives or is merged. *)
Theorem publish_ignores_prior_buffer s1 s2 P :
  to_boolean (handle s1) = false →
  delete "pending_implementors" (window s1) =
    delete "pending_implementors" (window s2) →
  (publish P s1).1 = Return tt ∧
  (publish P s2).1 = Return tt ∧
  window (publish P s1).2 = window (publish P s2).2.
Proof.
  intros Hf Hd.
  assert (Hh : handle s2 = handle s1).
  { unfold handle, read_global.
    rewrite <-(lookup_delete_ne (window s2) "pending_implementors"
                 "register_implementors") by done.
    rewrite <-Hd. by rewrite lookup_delete_ne. }
  rewrite !publish_falsy by by rewrite ?Hh.
  simpl. split_and!; [done..|].
  rewrite <-(insert_delete_eq (window s1)), <-(insert_delete_eq (window s2)).
  by rewrite Hd.
Qed.

(** X7. Which branch runs, and with what, is decided by the registrar
    global alone: on two pages that agree on [register_implementors], be
    they otherwise as different as they like (other globals, staged
    payloads, host state), a hand-off of [P] performs the same events. *)
Theorem publish_events_depend_on_handle_only s1 s2 P :
  handle s1 = handle s2 →
  emitted (publish P) s1 = emitted (publish P) s2.
Proof.
  intros Hh.
  destruct (publish_cases s1 P) as [[Hf Hem]|[[f [Hf Hem]]|(Ht & Hn & Hem)]];
    rewrite Hem; symmetry.
  - apply emitted_app. rewrite publish_falsy; [done|by rewrite <-Hh].
  - apply emitted_app. rewrite (publish_function s2 P f); [done|by rewrite <-Hh].
  - apply emitted_nil. rewrite publish_not_callable; by rewrite <-?Hh.
Qed.

(** X8. No silent drop within one load: the file performs at most one
    effect, and whenever it completes normally it has handed its payload
    over exactly once, by the one call or by the one write. *)
Theorem script_normal_completion_hands_over_once s :
  length (emitted script s) ≤ 1 ∧
  (∀ v, (script s).1 = Return v →
     v = JUndefined ∧
     ∃ e, emitted script s = [e] ∧ handed_over e = implementors).
Proof.
  assert (Hem : emitted script s = emitted (publish implementors) s).
  { unfold emitted. by rewrite script_unfold. }
  rewrite Hem.
  destruct (publish_cases s implementors)
    as [[Hf He]|[[f [Hf He]]|(Ht & Hn & He)]]; rewrite He.
  - split; [done|]. intros v Hv. rewrite script_falsy in Hv by done.
    injection Hv as <-. split; [done|]. by eexists.
  - split; [done|]. intros v Hv.
    rewrite script_unfold, (publish_function s implementors f Hf) in Hv.
    cbn [fst] in Hv. split; [|by eexists].
    destruct (call_fn f [implementors] (window s) (host s)).1.1;
      by inversion Hv.
  - split; [simpl; lia|]. intros v Hv.
    by rewrite script_unfold, publish_not_callable in Hv.
Qed.

End Runs.

(** * The statements at concrete pages *)

Lemma publish_uninitialized_stages_witness :
  to_boolean (handle fresh_page) = false ∧
  window (publish libA_payload fresh_page).2 !! "pending_implementors"
    = Some libA_payload.
Proof.
  split; [reflexivity|].
  apply (publish_uninitialized_stages fresh_page libA_payload).
  reflexivity.
Defined.

Lemma publish_ready_invokes_once_witness :
  handle ready_page = JFunction registrar ∧
  emitted (publish libA_payload) ready_page
    = [EvCall registrar [libA_payload]].
Proof.
  split; [reflexivity|].
  apply (publish_ready_invokes_once ready_page libA_payload registrar).
  reflexivity.
Defined.

Lemma publish_passes_payload_unchanged_witness :
  pending (publish libA_payload fresh_page).2 = libA_payload ∧
  emitted (publish libA_payload) ready_page
    = [EvCall registrar [libA_payload]].
Proof.
  split.
  - apply (publish_passes_payload_unchanged fresh_page libA_payload).
    reflexivity.
  - apply (publish_passes_payload_unchanged ready_page libA_payload).
    reflexivity.
Defined.

Lemma publish_completion_witness :
  (publish libA_payload fresh_page).1 = Return tt ∧
  emitted (publish libA_payload) ready_page
    = [EvCall registrar [libA_payload]] ∧
  publish libA_payload broken_page = (Throw TypeError, broken_page).
Proof.
  split_and!.
  - apply (publish_completion fresh_page libA_payload). reflexivity.
  - apply (publish_completion ready_page libA_payload). reflexivity.
  - apply (publish_completion broken_page libA_payload).
    + reflexivity.
    + intros f. discriminate.
Defined.

Lemma publish_dispatch_by_truthiness_witness :
  emitted (publish libA_payload) ready_page
    = [EvCall registrar [libA_payload]] ∧
  publish libA_payload broken_page = (Throw TypeError, broken_page) ∧
  pending (publish libA_payload fresh_page).2 = libA_payload ∧
  pending (publish libA_payload null_handle_page).2 = libA_payload.
Proof.
  split_and!.
  - destruct (publish_dispatch_by_truthiness ready_page libA_payload)
      as (_ & Hfun & _).
    apply (Hfun registrar). reflexivity.
  - destruct (publish_dispatch_by_truthiness broken_page libA_payload)
      as (_ & _ & Hbad & _).
    apply Hbad; [reflexivity|]. intros f. discriminate.
  - destruct (publish_dispatch_by_truthiness fresh_page libA_payload)
      as (_ & _ & _ & Hfalsy & _).
    apply Hfalsy. reflexivity.
  - destruct (publish_dispatch_by_truthiness null_handle_page libA_payload)
      as (_ & _ & _ & _ & _ & _ & Hlist).
    apply (Hlist JNull); [reflexivity|].
    apply list_elem_of_further, list_elem_of_here.
Defined.

Lemma publish_frame_witness :
  pending (publish libA_payload ready_page_with_staged).2 = libB_payload ∧
  handle (publish libA_payload fresh_page).2 = handle fresh_page ∧
  (publish libA_payload broken_page).2 = broken_page.
Proof.
  split_and!.
  - unfold pending, read_global.
    destruct (publish_frame ready_page_with_staged libA_payload) as [Hr _].
    destruct (Hr registrar eq_refl) as (_ & _ & _ & Hk).
    rewrite (Hk "pending_implementors" eq_refl). reflexivity.
  - apply (publish_frame fresh_page libA_payload). reflexivity.
  - apply (publish_frame broken_page libA_payload).
    + reflexivity.
    + intros f. discriminate.
Defined.

Lemma script_deterministic_witness :
  (script fresh_page).1 = (script fresh_page_later).1 ∧
  emitted script fresh_page = emitted script fresh_page_later.
Proof.
  destruct (script_deterministic fresh_page fresh_page_later) as [_ Hd].
  destruct (Hd eq_refl eq_refl) as (Ho & _ & _ & He).
  split; [exact Ho|exact He].
Defined.

Lemma page_delivers_last_staged_and_later_witness :
  deliveries (emitted (page_run [libA_payload] [libB_payload]) fresh_page)
    = [libA_payload; libB_payload] ∧
  deliveries (emitted (page_run [libA_payload; libB_payload] [libA_payload])
                fresh_page)
    = [libB_payload; libA_payload].
Proof.
  split.
  - apply (page_delivers_last_staged_and_later fresh_page
             [libA_payload] [libB_payload]); reflexivity.
  - apply (page_delivers_last_staged_and_later fresh_page
             [libA_payload; libB_payload] [libA_payload]); reflexivity.
Defined.

Lemma publish_install_commute_witness :
  host ((publish libA_payload ;; install) fresh_page).2
    = host ((install ;; publish libA_payload) fresh_page).2 ∧
  deliveries (emitted (publish libA_payload ;; install) fresh_page)
    = [libA_payload].
Proof.
  destruct (publish_install_commute fresh_page
              [("libA", JArray [JString "x"; JString "y"])] eq_refl eq_refl)
    as (_ & _ & Hh & _ & Hd & _).
  split; [exact Hh|exact Hd].
Defined.

(** The scenarios of the specification's section 8, on the fresh page. *)
Example install_on_empty_buffer :
  host (install fresh_page).2 = {| display := ∅; renders := 0 |} ∧
  deliveries (emitted install fresh_page) = [].
Proof. split; reflexivity. Qed.

Example publish_then_install :
  display (host ((publish libA_payload ;; install) fresh_page).2) !! "libA"
    = Some (JArray [JString "x"; JString "y"]).
Proof. vm_compute. reflexivity. Qed.

Example install_then_publish_empty_sequence :
  display (host ((install ;; publish (JObject [("libA", JArray [])]))
                   fresh_page).2) !! "libA"
    = Some (JArray []).
Proof. vm_compute. reflexivity. Qed.

(** A registrar that throws: the exception leaves [publish] as it left the
    call. *)
Example publish_registrar_throws :
  (publish libA_payload failing_page).1 = Throw (Thrown libA_payload) ∧
  emitted (publish libA_payload) failing_page
    = [EvCall registrar [libA_payload]].
Proof. split; reflexivity. Qed.

(** C1, as the specification words it, fails: of two payloads published
    before [install] only the second reaches the registrar; the first is
    overwritten in the single slot and never shows in the display model. *)
Lemma staged_payload_overwritten_counterexample :
  ¬ exactly_once_delivery fresh_page [libA_payload; libB_payload] [] ∧
  deliveries (emitted (page_run [libA_payload; libB_payload] []) fresh_page)
    = [libB_payload] ∧
  display (host (page_run [libA_payload; libB_payload] [] fresh_page).2)
    !! "libA" = None.
Proof.
  split_and!.
  - unfold exactly_once_delivery. intros Hp.
    apply Permutation_length in Hp. vm_compute in Hp. discriminate.
  - vm_compute. reflexivity.
  - vm_compute. reflexivity.
Qed.

(** C7, as the specification words it, fails: with a truthy registrar
    global that is not a function, [publish] ends in a [TypeError]. *)
Lemma publish_type_error_counterexample :
  to_boolean (handle broken_page) = true ∧
  (publish libA_payload broken_page).1 = Throw TypeError ∧
  (publish libA_payload broken_page).1 ≠ Return tt.
Proof.
  split_and!; [reflexivity|reflexivity|discriminate].
Qed.

Lemma publish_twice_last_write_wins_witness :
  pending ((publish libA_payload ;; publish libB_payload) fresh_page).2
    = libB_payload.
Proof.
  apply (publish_twice_last_write_wins fresh_page libA_payload libB_payload).
  reflexivity.
Defined.

Lemma script_times_uninitialized_idempotent_witness :
  window (script_times 3 fresh_page).2 = window (script fresh_page).2.
Proof.
  apply (script_times_uninitialized_idempotent 2 fresh_page).
  reflexivity.
Defined.

Lemma script_times_ready_calls_each_time_witness :
  emitted (script_times 2) ready_page
    = [EvCall registrar [implementors]; EvCall registrar [implementors]].
Proof.
  apply (script_times_ready_calls_each_time 2 ready_page registrar).
  - intros w h e. discriminate.
  - intros w h Hw. exact Hw.
  - reflexivity.
Defined.

Lemma publish_ignores_prior_buffer_witness :
  window (publish libA_payload fresh_page).2
    = window (publish libA_payload staged_page).2.
Proof.
  apply (publish_ignores_prior_buffer fresh_page staged_page libA_payload).
  - reflexivity.
  - vm_compute. reflexivity.
Defined.

Lemma publish_events_depend_on_handle_only_witness :
  emitted (publish libA_payload) fresh_page
    = emitted (publish libA_payload) staged_page.
Proof.
  apply (publish_events_depend_on_handle_only fresh_page staged_page
           libA_payload).
  reflexivity.
Defined.

Lemma script_normal_completion_hands_over_once_witness :
  ∃ e, emitted script fresh_page = [e] ∧ handed_over e = implementors.
Proof.
  destruct (script_normal_completion_hands_over_once fresh_page) as [_ Hn].
  apply (Hn JUndefined). reflexivity.
Defined.

(** C2, as the specification words it, fails on an Uninitialized page that
    already holds a staged payload: publishing first overwrites the staged
    payload, so the display model ends with the new entries only, while
    installing first drains it, so the display model ends with both. *)
Lemma publish_install_order_counterexample :
  to_boolean (handle staged_page) = false ∧
  host ((publish libA_payload ;; install) staged_page).2
    ≠ host ((install ;; publish libA_payload) staged_page).2 ∧
  display (host ((publish libA_payload ;; install) staged_page).2) !! "libB"
    = None ∧
  display (host ((install ;; publish libA_payload) staged_page).2) !! "libB"
    = Some (JArray [JString "z"]).
Proof.
  split_and!.
  - reflexivity.
  - intros Heq.
    apply (f_equal (λ r : registrar_state, display r !! "libB")) in Heq.
    vm_compute in Heq. discriminate.
  - vm_compute. reflexivity.
  - vm_compute. reflexivity.
Qed.

(** C8, as the specification words it, fails for a truthy handle that is
    not a function: nothing is invoked, and nothing is staged either. *)
Lemma truthy_handle_not_invoked_counterexample :
  to_boolean (handle broken_page) = true ∧
  emitted (publish libA_payload) broken_page = [] ∧
  (∀ f args, EvCall f args ∉ emitted (publish libA_payload) broken_page) ∧
  pending (publish libA_payload broken_page).2 = JUndefined.
Proof.
  split_and!; [reflexivity|reflexivity| |reflexivity].
  intros f args Hin. by apply elem_of_nil in Hin.
Qed.
